(** * Image feature extraction service: model lifecycle and request pipeline

    A shallow embedding of [python-service/main.py]: the retrying model
    loader, the start-up hook and the two extraction handlers.  The module
    globals [model], [processor] and [device] are threaded explicitly; calls
    into torch, transformers and PIL are oracles collected in an environment
    record, and every such call is recorded in a trace so that statements
    of the form "no work is attempted" can be made.  Logging has no
    functional effect and is left out. *)

From Stdlib Require Import String Ascii ZArith List Bool Lia DecimalString.
Import ListNotations.

Open Scope string_scope.
Open Scope Z_scope.

(** ** Python strings: [str.lower] and the [in] operator *)

Module PyStr.

(** [str.lower] on one character of the UTF-8 text.  Only A..Z is mapped:
    the loader searches the result for two words of plain ASCII letters,
    and lowering other characters cannot create or destroy an occurrence
    of such a word. *)
Definition lower_char (c : ascii) : ascii :=
  let n := nat_of_ascii c in
  if ((65 <=? n) && (n <=? 90))%nat then ascii_of_nat (n + 32) else c.

Fixpoint lower (s : string) : string :=
  match s with
  | EmptyString => EmptyString
  | String c rest => String (lower_char c) (lower rest)
  end.

(** [needle in hay] *)
Fixpoint contains (needle hay : string) : bool :=
  String.prefix needle hay ||
  match hay with
  | EmptyString => false
  | String _ rest => contains needle rest
  end.

(** [str(n)] for an integer *)
Definition of_Z (n : Z) : string := NilZero.string_of_int (Z.to_int n).

End PyStr.

(** ** Exceptions and results *)

(** The two exception classes the file distinguishes.  [HTTPException] is
    what FastAPI turns into a response with the given status code. *)
Inductive exn : Type :=
| Exception (msg : string)
| HTTPException (status_code : Z) (detail : string).

(** [str(e)] *)
Definition str (e : exn) : string :=
  match e with
  | Exception msg => msg
  | HTTPException code detail => PyStr.of_Z code ++ ": " ++ detail
  end.

(** What a call into a library does: return a value or raise an exception
    of class [Exception] whose description is [msg].  Raises outside that
    class (a cancelled task, an interpreter exit), which no [except] clause
    of the file catches, are not modelled. *)
Inductive outcome (A : Type) : Type :=
| Returns (a : A)
| Raises (msg : string).
Arguments Returns {A} a.
Arguments Raises {A} msg.

Inductive result (A : Type) : Type :=
| Ok (a : A)
| Raise (e : exn).
Arguments Ok {A} a.
Arguments Raise {A} e.

(** An [io.BytesIO] object: where it lives and what it holds.  Pillow
    prints the object into the text of its "cannot identify image file"
    error, so that text differs from one buffer to the next. *)
Record BytesIO : Type := mkBytesIO {
  address : Z;
  getvalue : list Byte.byte
}.

(** An uploaded file as a handler meets it: its declared name, what
    [await file.read()] gives, and the address of the [io.BytesIO] object
    the handler wraps those bytes in.  A handler reads and wraps an upload
    once, so the address is fixed per upload; two uploads of the same
    bytes are two values that differ in it. *)
Record UploadFile : Type := mkUploadFile {
  filename : string;
  read : outcome (list Byte.byte);
  buffer_address : Z
}.

(** [io.BytesIO(image_bytes)] for the bytes read from [file]. *)
Definition io_BytesIO (file : UploadFile) (image_bytes : list Byte.byte)
  : BytesIO :=
  mkBytesIO (buffer_address file) image_bytes.

(** The loader's failure classification (line 91):
    ["timeout" in error_msg.lower() or "connection" in error_msg.lower()]. *)
Definition is_network_error (error_msg : string) : bool :=
  PyStr.contains "timeout" (PyStr.lower error_msg) ||
  PyStr.contains "connection" (PyStr.lower error_msg).

Section Service.

(** Opaque library values: the CLIP model and processor, a PIL image, the
    preprocessed tensor dictionary, and a tensor entry. *)
Context {Model Processor Image Inputs Float : Type}.

(** The world outside the file.  [CLIPModel_from_pretrained] and
    [CLIPProcessor_from_pretrained] are indexed by the loop's [attempt],
    since the same call can fail on one attempt and succeed on the next.
    [time_sleep_outcome d] is what [time.sleep(d)] does: it returns after
    sleeping, or raises without sleeping (CPython raises [ValueError] on a
    negative delay and [OverflowError] on one beyond its timer's range). *)
Record Env : Type := mkEnv {
  torch_cuda_is_available : bool;
  time_sleep_outcome : Z -> outcome unit;
  CLIPModel_from_pretrained : nat -> outcome Model;
  CLIPProcessor_from_pretrained : nat -> outcome Processor;
  model_to : Model -> option string -> outcome Model;
  model_eval : Model -> outcome unit;
  Image_open : BytesIO -> outcome Image;
  image_mode : Image -> string;
  image_convert : Image -> string -> outcome Image;
  processor_call : Processor -> Image -> outcome Inputs;
  inputs_to : Inputs -> option string -> outcome Inputs;
  get_image_features : Model -> Inputs -> outcome (list (list Float));
  tensor_norm : list Float -> Float;
  tensor_div : Float -> Float -> Float
}.

(** The module globals (lines 27-29). *)
Record Globals : Type := mkGlobals {
  model : option Model;
  processor : option Processor;
  device : option string
}.

(** One entry per call that leaves the file. *)
Inductive Event : Type :=
| EvSleep (seconds : Z)
| EvModelFromPretrained (attempt : nat)
| EvProcessorFromPretrained (attempt : nat)
| EvModelTo (m : Model) (dev : option string)
| EvModelEval (m : Model)
| EvFileRead (name : string)
| EvImageOpen (image_bytes : list Byte.byte)
| EvImageConvert (image : Image) (mode : string)
| EvProcessor (p : Processor) (image : Image)
| EvInputsTo (inputs : Inputs) (dev : option string)
| EvGetImageFeatures (m : Model) (inputs : Inputs).

Record World : Type := mkWorld {
  globals : Globals;
  trace : list Event
}.

(** *** A state-and-exception monad over [World] *)

Definition M (A : Type) : Type := World -> result A * World.

Definition ret {A} (a : A) : M A := fun w => (Ok a, w).

Definition raise {A} (e : exn) : M A := fun w => (Raise e, w).

Definition bind {A B} (c : M A) (k : A -> M B) : M B :=
  fun w =>
    match c w with
    | (Ok a, w') => k a w'
    | (Raise e, w') => (Raise e, w')
    end.

(** [try: a = c  except Exception as e: h e  else: k a] *)
Definition try_except {A B} (c : M A) (h : exn -> M B) (k : A -> M B) : M B :=
  fun w =>
    match c w with
    | (Ok a, w') => k a w'
    | (Raise e, w') => h e w'
    end.

Definition get_globals : M Globals := fun w => (Ok (globals w), w).

Definition set_model (m : option Model) : M unit :=
  fun w =>
    (Ok tt, mkWorld (mkGlobals m (processor (globals w)) (device (globals w)))
                    (trace w)).

Definition set_processor (p : option Processor) : M unit :=
  fun w =>
    (Ok tt, mkWorld (mkGlobals (model (globals w)) p (device (globals w)))
                    (trace w)).

Definition set_device (d : option string) : M unit :=
  fun w =>
    (Ok tt, mkWorld (mkGlobals (model (globals w)) (processor (globals w)) d)
                    (trace w)).

Definition emit (ev : Event) : M unit :=
  fun w => (Ok tt, mkWorld (globals w) (trace w ++ [ev])).

(** A library call: it is recorded, then returns or raises. *)
Definition call {A} (ev : Event) (o : outcome A) : M A :=
  fun w =>
    let w' := mkWorld (globals w) (trace w ++ [ev]) in
    match o with
    | Returns a => (Ok a, w')
    | Raises msg => (Raise (Exception msg), w')
    end.

Notation "x <- c ;; k" := (bind c (fun x => k))
  (at level 61, c at next level, right associativity).
Notation "c ;;; k" := (bind c (fun _ => k))
  (at level 61, right associativity).

Variable env : Env.

(** *** The loader (lines 31-108) *)

(** [time.sleep(d)]: a sleep is recorded when the call returns; when it
    raises, nothing was slept. *)
Definition time_sleep (d : Z) : M unit :=
  match time_sleep_outcome env d with
  | Returns _ => emit (EvSleep d)
  | Raises msg => raise (Exception msg)
  end.

(** Lines 49-52: the sleep before a retry and the doubling of the local
    [retry_delay]; the value returned is [retry_delay] afterwards. *)
Definition backoff (attempt : nat) (retry_delay : Z) : M Z :=
  if (0 <? attempt)%nat
  then time_sleep retry_delay ;;; ret (retry_delay * 2)
  else ret retry_delay.

(** Lines 63-78: the two downloads, the move to the device and [eval()].
    The globals are assigned as the calls return, so a failure half-way
    leaves the earlier assignments in place. *)
Definition load_attempt (attempt : nat) : M unit :=
  m <- call (EvModelFromPretrained attempt)
            (CLIPModel_from_pretrained env attempt) ;;
  set_model (Some m) ;;;
  p <- call (EvProcessorFromPretrained attempt)
            (CLIPProcessor_from_pretrained env attempt) ;;
  set_processor (Some p) ;;;
  g <- get_globals ;;
  m' <- call (EvModelTo m (device g)) (model_to env m (device g)) ;;
  set_model (Some m') ;;;
  call (EvModelEval m') (model_eval env m').

(** The [for attempt in range(max_retries)] loop; [remaining] counts the
    iterations still to run.  [on_error] is the [except] clause of
    lines 87-106: [continue] on a network error with attempts left, a
    bare [raise] otherwise. *)
Fixpoint retry_loop (max_retries : Z) (remaining attempt : nat)
         (retry_delay : Z) : M bool :=
  match remaining with
  | O => ret false
  | S remaining' =>
      let on_error (delay : Z) (e : exn) : M bool :=
        if is_network_error (str e) then
          if Z.of_nat attempt <? max_retries - 1
          then retry_loop max_retries remaining' (S attempt) delay
          else raise e
        else raise e in
      try_except (backoff attempt retry_delay) (on_error retry_delay)
        (fun delay =>
           try_except (load_attempt attempt) (on_error delay)
             (fun _ => ret true))
  end.

Definition load_model_with_retry (max_retries retry_delay : Z) : M bool :=
  set_device (Some (if torch_cuda_is_available env then "cuda" else "cpu")) ;;;
  retry_loop max_retries (Z.to_nat max_retries) 0 retry_delay.

(** Lines 118-127, the start-up half of [lifespan], with the loader call
    as a parameter: whatever the loader returns is discarded, only an
    exception aborts start-up. *)
Definition lifespan_with (loader : M bool) : M unit :=
  try_except loader (fun e => raise e) (fun _ => ret tt).

(** [lifespan] as written: [load_model_with_retry()] with its defaults. *)
Definition lifespan : M unit :=
  lifespan_with (load_model_with_retry 3 5).

(** *** The extraction handlers (lines 168-253) *)

(** The body of a 200 response of [/extract-features]. *)
Record FeaturesResponse : Type := mkFeaturesResponse {
  success : bool;
  embedding : list Float;
  dimension : nat
}.

(** One element of [results]: the dictionary with ["success": True] or
    the one with ["success": False]. *)
Inductive BatchEntry : Type :=
| EntrySuccess (name : string) (vector : list Float) (dim : nat)
| EntryFailure (name : string) (error : string).

Definition entry_filename (e : BatchEntry) : string :=
  match e with
  | EntrySuccess name _ _ => name
  | EntryFailure name _ => name
  end.

Definition entry_success (e : BatchEntry) : bool :=
  match e with
  | EntrySuccess _ _ _ => true
  | EntryFailure _ _ => false
  end.

(** The body of a 200 response of [/extract-features-batch]. *)
Record BatchResponse : Type := mkBatchResponse {
  batch_success : bool;
  results : list BatchEntry
}.

(** Lines 179-184 and 221-225: read the upload, open it, and convert it
    when its mode is the string ['RGBA']. *)
Definition decode (file : UploadFile) : M Image :=
  image_bytes <- call (EvFileRead (filename file)) (read file) ;;
  image <- call (EvImageOpen image_bytes)
                (Image_open env (io_BytesIO file image_bytes)) ;;
  if String.eqb (image_mode env image) "RGBA"
  then call (EvImageConvert image "RGB") (image_convert env image "RGB")
  else ret image.

(** [image_features / image_features.norm(dim=-1, keepdim=True)]: every
    row is divided by its own norm. *)
Definition normalize (image_features : list (list Float)) : list (list Float) :=
  map (fun row => map (fun x => tensor_div env x (tensor_norm env row)) row)
      image_features.

(** Lines 187-195 and 227-233.  The globals are looked up where the code
    names them; calling or dereferencing [None] raises. *)
Definition embed (image : Image) : M (list Float) :=
  g <- get_globals ;;
  match processor g with
  | None => raise (Exception "'NoneType' object is not callable")
  | Some p =>
      inputs <- call (EvProcessor p image) (processor_call env p image) ;;
      g <- get_globals ;;
      inputs <- call (EvInputsTo inputs (device g))
                     (inputs_to env inputs (device g)) ;;
      g <- get_globals ;;
      match model g with
      | None =>
          raise (Exception
                   "'NoneType' object has no attribute 'get_image_features'")
      | Some m =>
          image_features <- call (EvGetImageFeatures m inputs)
                                 (get_image_features env m inputs) ;;
          match normalize image_features with
          | [] => raise (Exception
                           "index 0 is out of bounds for axis 0 with size 0")
          | first :: _ => ret first
          end
      end
  end.

(** The gate of lines 174 and 214: [model is None or processor is None]. *)
Definition not_loaded (g : Globals) : bool :=
  match model g, processor g with
  | Some _, Some _ => false
  | _, _ => true
  end.

Definition extract_features (file : UploadFile) : M FeaturesResponse :=
  g <- get_globals ;;
  if not_loaded g then raise (HTTPException 503 "Model not loaded")
  else
    try_except (image <- decode file ;; embed image)
      (fun e =>
         raise (HTTPException 500 ("Feature extraction failed: " ++ str e)))
      (fun vector => ret (mkFeaturesResponse true vector (length vector))).

(** The body of the batch loop, lines 220-248: the [try] and its
    [except], each ending in one [results.append]. *)
Definition process_file (file : UploadFile) : M BatchEntry :=
  try_except (image <- decode file ;; embed image)
    (fun e => ret (EntryFailure (filename file) (str e)))
    (fun vector => ret (EntrySuccess (filename file) vector (length vector))).

Fixpoint batch_loop (files : list UploadFile) (acc : list BatchEntry)
  : M (list BatchEntry) :=
  match files with
  | [] => ret acc
  | file :: rest =>
      entry <- process_file file ;;
      batch_loop rest (acc ++ [entry])
  end.

Definition extract_features_batch (files : list UploadFile) : M BatchResponse :=
  g <- get_globals ;;
  if not_loaded g then raise (HTTPException 503 "Model not loaded")
  else
    rs <- batch_loop files [] ;;
    ret (mkBatchResponse true rs).

(** *** The health endpoint (lines 149-166) *)

(** The dictionary [health_check] returns; a key that one of its two
    shapes lacks is [None]. *)
Record HealthResponse : Type := mkHealthResponse {
  status : string;
  model_loaded : bool;
  reported_device : option string;
  message : option string;
  model_name : option string;
  embedding_dimension : option Z
}.

Definition health_check : M HealthResponse :=
  g <- get_globals ;;
  if not_loaded g
  then ret (mkHealthResponse "unhealthy" false (device g)
                             (Some "Model not loaded") None None)
  else ret (mkHealthResponse "healthy" true (device g)
                             None (Some "CLIP ViT-B/32") (Some 512)).

End Service.


(** ** Observations on traces *)

Open Scope list_scope.

Section Observations.

Context {Model Processor Image Inputs Float : Type}.

(** The loader's schedule: the sleeps ([inl seconds]) and the starts of
    load attempts ([inr attempt]), in the order they happened. *)
Definition schedule (tr : list (@Event Model Processor Image Inputs))
  : list (Z + nat) :=
  flat_map (fun ev =>
              match ev with
              | EvSleep d => [inl d]
              | EvModelFromPretrained k => [inr k]
              | _ => []
              end) tr.

Definition sleeps (tr : list (@Event Model Processor Image Inputs)) : list Z :=
  flat_map (fun ev => match ev with EvSleep d => [d] | _ => [] end) tr.


(** The device string chosen on line 35. *)
Definition selected_device (env : @Env Model Processor Image Inputs Float)
  : option string :=
  Some (if torch_cuda_is_available env then "cuda" else "cpu").

(** How load attempt number [k] ends when the device global is [dev]:
    [Ok tt] if lines 63-78 run through, [Raise e] with the exception that
    reaches the [except] clause otherwise. *)
Definition attempt_outcome (env : @Env Model Processor Image Inputs Float)
           (dev : option string) (k : nat) : result unit :=
  fst (load_attempt env k (mkWorld (mkGlobals None None dev) [])).

(** The names of the uploads read, in order. *)
Definition reads (tr : list (@Event Model Processor Image Inputs)) : list string :=
  flat_map (fun ev => match ev with EvFileRead name => [name] | _ => [] end) tr.

(** How many times the model was run. *)
Definition inferences (tr : list (@Event Model Processor Image Inputs)) : nat :=
  length (flat_map (fun ev =>
                      match ev with EvGetImageFeatures _ _ => [tt] | _ => [] end)
                   tr).

(** How many load attempts a schedule holds. *)
Definition attempts_made (tr : list (@Event Model Processor Image Inputs)) : nat :=
  length (filter (fun x => match x with inr _ => true | inl _ => false end)
                 (schedule tr)).


(** The outcome of one batch item as a function of the item alone, for
    comparison with the loop of [extract_features_batch]: the item's
    calls in pipeline order, the first one that raises giving the error
    entry, and the normalized first output row giving the success entry.
    [m], [p] and [dev] are the model, processor and device in force. *)
Definition item_embedding (env : @Env Model Processor Image Inputs Float)
           (m : Model) (p : Processor) (dev : option string)
           (file : UploadFile) : outcome (list Float) :=
  match read file with
  | Raises msg => Raises msg
  | Returns image_bytes =>
  match Image_open env (io_BytesIO file image_bytes) with
  | Raises msg => Raises msg
  | Returns opened =>
  match (if String.eqb (image_mode env opened) "RGBA"
         then image_convert env opened "RGB" else Returns opened) with
  | Raises msg => Raises msg
  | Returns image =>
  match processor_call env p image with
  | Raises msg => Raises msg
  | Returns inputs =>
  match inputs_to env inputs dev with
  | Raises msg => Raises msg
  | Returns moved =>
  match get_image_features env m moved with
  | Raises msg => Raises msg
  | Returns [] => Raises "index 0 is out of bounds for axis 0 with size 0"
  | Returns (row :: _) =>
      Returns (map (fun x => tensor_div env x (tensor_norm env row)) row)
  end end end end end end.

Definition item_outcome (env : @Env Model Processor Image Inputs Float)
           (m : Model) (p : Processor) (dev : option string)
           (file : UploadFile) : @BatchEntry Float :=
  match item_embedding env m p dev file with
  | Returns v => EntrySuccess (filename file) v (length v)
  | Raises msg => EntryFailure (filename file) msg
  end.

End Observations.



(** Pillow's modes that carry an alpha band: what "an image with an alpha
    channel" covers besides ['RGBA']. *)
Definition mode_has_alpha (mode : string) : bool :=
  existsb (String.eqb mode) ["RGBA"; "LA"; "PA"; "RGBa"; "La"]%string.

(** ** A small concrete world

    Used to run the handlers and the loader on explicit inputs.  An image
    is its mode and payload; the first byte of an upload selects the mode;
    a tensor entry is an integer. *)

Module Toy.

Definition Image : Type := string * list Byte.byte.

(** [time.sleep] on an integer number of seconds, as CPython 3.11 does it:
    the delay must fit the nanosecond timer, then be non-negative. *)
Definition sleep (d : Z) : outcome unit :=
  if (d <? -9223372036) || (9223372036 <? d)
  then Raises "timestamp too large to convert to C _PyTime_t"
  else if d <? 0 then Raises "sleep length must be non-negative"
  else Returns tt.

(** [Image.open] reads the header only: the first byte gives the mode,
    and bytes it does not recognise are reported with the buffer printed
    into the text. *)
Definition open (fp : BytesIO) : outcome Image :=
  match getvalue fp with
  | Byte.x00 :: payload => Returns ("RGB"%string, payload)
  | Byte.x01 :: payload => Returns ("RGBA"%string, payload)
  | Byte.x02 :: payload => Returns ("LA"%string, payload)
  | Byte.xff :: _ => Raises "out of memory"
  | _ => Raises ("cannot identify image file <_io.BytesIO object at "
                   ++ PyStr.of_Z (address fp) ++ ">")
  end.

(** Pillow decodes the pixel data when it is first needed, and whichever
    operation needs it first meets the error of a file whose data is cut
    short. *)
Definition load (image : Image) : outcome (list Z) :=
  match snd image with
  | [] => Raises "image file is truncated"
  | payload => Returns (map (fun b => Z.of_N (Byte.to_N b)) payload)
  end.

Definition convert (image : Image) (mode : string) : outcome Image :=
  match load image with
  | Returns _ => Returns (mode, snd image)
  | Raises msg => Raises msg
  end.

Definition preprocess (p : unit) (image : Image) : outcome (list Z) :=
  load image.

Definition features (m : unit) (inputs : list Z) : outcome (list (list Z)) :=
  match inputs with
  | [] => Raises "out of memory"
  | _ => Returns [inputs]
  end.

(** Fixed-point stand-ins for the tensor operations: the 1-norm, and
    division in hundredths. *)
Definition norm (row : list Z) : Z := fold_right (fun x s => Z.abs x + s) 0 row.

Definition div (x n : Z) : Z := 100 * x / n.

(** The world with the given behaviour of [CLIPModel.from_pretrained]. *)
Definition env (download : nat -> outcome unit)
  : @Env unit unit Image (list Z) Z :=
  mkEnv false sleep download (fun _ => Returns tt)
        (fun m _ => Returns m) (fun _ => Returns tt)
        open fst convert preprocess (fun inputs _ => Returns inputs)
        features norm div.

(** Two network failures, then success. *)
Definition flaky (attempt : nat) : outcome unit :=
  match attempt with
  | 0%nat => Raises "Connection aborted"
  | 1%nat => Raises "HTTPSConnectionPool: Read Timeout"
  | _ => Returns tt
  end.

(** A failure that is not a network failure. *)
Definition broken (attempt : nat) : outcome unit :=
  Raises "No space left on device".

Definition healthy (attempt : nat) : outcome unit := Returns tt.

(** The globals before start-up and after a successful one. *)
Definition unloaded : @World unit unit Image (list Z) :=
  mkWorld (mkGlobals None None None) [].

Definition loaded : @World unit unit Image (list Z) :=
  mkWorld (mkGlobals (Some tt) (Some tt) (Some "cpu"%string)) [].

Definition rgb_png : UploadFile :=
  mkUploadFile "a.png" (Returns [Byte.x00; Byte.x03; Byte.x04]) 140001.

Definition rgba_png : UploadFile :=
  mkUploadFile "c.png" (Returns [Byte.x01; Byte.x06; Byte.x08]) 140003.

Definition la_png : UploadFile :=
  mkUploadFile "icon.png" (Returns [Byte.x02; Byte.x10; Byte.x20]) 140004.

Definition garbage : UploadFile :=
  mkUploadFile "b.txt" (Returns [Byte.x47; Byte.x49; Byte.x46]) 140002.

Definition huge : UploadFile :=
  mkUploadFile "huge.tif" (Returns [Byte.xff; Byte.x00]) 140005.

(** A sound RGB header with the pixel data cut off. *)
Definition blank : UploadFile :=
  mkUploadFile "blank.png" (Returns [Byte.x00]) 140006.

(** A sound RGBA header with the pixel data cut off. *)
Definition blank_rgba : UploadFile :=
  mkUploadFile "blank_rgba.png" (Returns [Byte.x01]) 140007.


(** A world whose downloads work and whose device rejects the model. *)
Definition no_device : @Env unit unit Image (list Z) Z :=
  mkEnv false sleep healthy (fun _ => Returns tt)
        (fun _ _ => Raises "CUDA error: invalid device ordinal")
        (fun _ => Returns tt)
        open fst convert preprocess (fun inputs _ => Returns inputs)
        features norm div.


End Toy.




(** ** The failure classification ignores case *)

Lemma prefix_lower (needle hay : string) :
  String.prefix needle hay = true ->
  String.prefix (PyStr.lower needle) (PyStr.lower hay) = true.
Proof.
  revert needle. induction hay as [|b hay IH]; intros [|a needle];
    cbn [String.prefix PyStr.lower]; try easy.
  destruct (ascii_dec a b) as [->|]; [|discriminate].
  intros H. destruct (ascii_dec (PyStr.lower_char b) (PyStr.lower_char b));
    [auto | congruence].
Qed.

Lemma contains_lower (needle hay : string) :
  PyStr.contains needle hay = true ->
  PyStr.contains (PyStr.lower needle) (PyStr.lower hay) = true.
Proof.
  induction hay as [|b hay IH]; cbn [PyStr.contains PyStr.lower];
    rewrite !orb_true_iff; intros [H|H].
  - left. exact (prefix_lower needle EmptyString H).
  - discriminate.
  - left. exact (prefix_lower needle (String b hay) H).
  - right. auto.
Qed.

(** X14: the loader's classification ignores case: a description in which
    "timeout" or "connection" occurs in any mix of upper and lower case is
    classified as a network error. *)
Lemma mentions_network_word (error_msg word : string) :
  PyStr.lower word = "timeout"%string \/ PyStr.lower word = "connection"%string ->
  PyStr.contains word error_msg = true ->
  is_network_error error_msg = true.
Proof.
  intros Hword Hin. apply contains_lower in Hin. unfold is_network_error.
  apply orb_true_iff. destruct Hword as [E|E]; rewrite E in Hin; auto.
Qed.

Section Properties.

Context {Model Processor Image Inputs Float : Type}.
Variable env : @Env Model Processor Image Inputs Float.

Ltac run :=
  unfold extract_features, extract_features_batch, process_file, decode,
    embed, load_attempt, backoff, time_sleep, try_except, bind, call, emit,
    ret, raise, get_globals, set_model, set_processor, set_device in *;
  cbn [fst snd globals trace model processor device] in *.

Ltac cases :=
  repeat (match goal with
          | |- context [match ?x with _ => _ end] =>
              lazymatch x with
              | context [match _ with _ => _ end] => fail
              | _ => destruct x eqn:?
              end
          end;
          cbn [fst snd globals trace model processor device] in *).

Lemma schedule_app (a b : list (@Event Model Processor Image Inputs)) :
  schedule (a ++ b) = schedule a ++ schedule b.
Proof. unfold schedule. apply flat_map_app. Qed.

Lemma sleeps_app (a b : list (@Event Model Processor Image Inputs)) :
  sleeps (a ++ b) = sleeps a ++ sleeps b.
Proof. unfold sleeps. apply flat_map_app. Qed.


(** *** The request pipeline only reads the globals *)

Lemma decode_globals (file : UploadFile) (w : @World Model Processor Image Inputs) :
  globals (snd (decode env file w)) = globals w.
Proof. run. cases; reflexivity. Qed.

Lemma embed_globals (image : Image) (w : @World Model Processor Image Inputs) :
  globals (snd (embed env image w)) = globals w.
Proof. run. cases; reflexivity. Qed.

(** *** One batch item *)

(** The loop body never raises: it ends in exactly one entry, which
    carries the file's name and is either the success dictionary with
    [dimension = len(embedding)] or the failure dictionary. *)
Lemma process_file_entry (file : UploadFile)
      (w : @World Model Processor Image Inputs) :
  exists e w',
    process_file env file w = (Ok e, w') /\
    globals w' = globals w /\
    ((exists v, e = EntrySuccess (filename file) v (length v)) \/
     (exists err, e = EntryFailure (filename file) err)).
Proof.
  run. cases; eexists; eexists; (split; [reflexivity|]);
    (split; [reflexivity|]); eauto.
Qed.

(** What the loop body yields depends on the upload (its buffer
    included) and on the globals, not on what was done before. *)
Lemma process_file_indep (file : UploadFile)
      (w1 w2 : @World Model Processor Image Inputs) :
  globals w1 = globals w2 ->
  fst (process_file env file w1) = fst (process_file env file w2).
Proof.
  destruct w1 as [g1 t1], w2 as [g2 t2]. cbn [globals]. intros ->.
  run. cases; reflexivity.
Qed.

Lemma batch_loop_entries (files : list UploadFile) :
  forall (acc : list BatchEntry) (w : @World Model Processor Image Inputs),
  exists rs w',
    batch_loop env files acc w = (Ok (acc ++ rs), w') /\
    globals w' = globals w /\
    Forall2 (fun file e =>
               forall w0, globals w0 = globals w ->
                          fst (process_file env file w0) = Ok e)
            files rs.
Proof.
  induction files as [|file rest IH]; intros acc w.
  - exists [], w. cbn [batch_loop]. unfold ret. rewrite app_nil_r.
    repeat split. constructor.
  - destruct (process_file_entry file w) as (e & w1 & Hrun & Hg & _).
    destruct (IH (acc ++ [e]) w1) as (rs & w2 & Hloop & Hg2 & Hall).
    exists (e :: rs), w2. cbn [batch_loop]. unfold bind at 1.
    rewrite Hrun, Hloop, <- app_assoc. cbn [app].
    repeat split.
    + congruence.
    + constructor.
      * intros w0 Hw0. rewrite (process_file_indep file w0 w), Hrun by auto.
        reflexivity.
      * rewrite Hg in Hall. exact Hall.
Qed.

(** *** The handlers *)

Lemma reads_snoc (tr : list (@Event Model Processor Image Inputs))
      (ev : @Event Model Processor Image Inputs) :
  reads (tr ++ [ev]) =
  reads tr ++ match ev with EvFileRead name => [name] | _ => [] end.
Proof.
  unfold reads. rewrite flat_map_app. cbn [flat_map]. rewrite app_nil_r.
  reflexivity.
Qed.

(** With model [m] and processor [p] loaded, the loop body turns a file
    into the entry [item_outcome] gives it: it reads the file, makes the
    item's calls in order, and stops at the first one that raises. *)
Lemma process_file_outcome (file : UploadFile) (m : Model) (p : Processor)
      (w : @World Model Processor Image Inputs) :
  model (globals w) = Some m ->
  processor (globals w) = Some p ->
  exists w',
    process_file env file w =
      (Ok (item_outcome env m p (device (globals w)) file), w') /\
    globals w' = globals w /\
    reads (trace w') = reads (trace w) ++ [filename file].
Proof.
  intros Hm Hp. unfold item_outcome, item_embedding. run. unfold normalize.
  repeat (rewrite ?Hm, ?Hp;
          match goal with
          | |- context [match ?x with _ => _ end] =>
              lazymatch x with
              | context [match _ with _ => _ end] => fail
              | _ => destruct x eqn:?
              end
          end;
          cbn [fst snd globals trace model processor device map] in *;
          try discriminate);
    try match goal with
        | H : _ :: _ = _ :: _ |- _ => injection H as <- <-
        end;
    eexists; (split; [reflexivity|]); cbn [globals trace];
    (split; [reflexivity|]);
    repeat rewrite reads_snoc; rewrite <- ?app_assoc, ?app_nil_r;
    reflexivity.
Qed.

Lemma batch_loop_outcomes (files : list UploadFile) (m : Model) (p : Processor) :
  forall (acc : list BatchEntry) (w : @World Model Processor Image Inputs),
    model (globals w) = Some m ->
    processor (globals w) = Some p ->
    exists w',
      batch_loop env files acc w =
        (Ok (acc ++ map (item_outcome env m p (device (globals w))) files), w') /\
      globals w' = globals w /\
      reads (trace w') = reads (trace w) ++ map filename files.
Proof.
  induction files as [|file rest IH]; intros acc w Hm Hp.
  - exists w. cbn [batch_loop map]. unfold ret. rewrite !app_nil_r.
    repeat split.
  - destruct (process_file_outcome file m p w Hm Hp) as (w1 & Hrun & Hg & Hr).
    destruct (IH (acc ++ [item_outcome env m p (device (globals w)) file]) w1)
      as (w2 & Hloop & Hg2 & Hr2); [congruence | congruence |].
    exists w2. cbn [batch_loop map]. unfold bind at 1.
    rewrite Hrun, Hloop, Hg, <- app_assoc. cbn [app].
    split; [reflexivity|]. split; [congruence|].
    rewrite Hr2, Hr, <- app_assoc. reflexivity.
Qed.

(** C1: while the engine is ready, with model [m] and processor [p], a
    batch request returns normally with one entry per uploaded file, in
    the order of the files: the results are the files mapped, one by one,
    to [item_outcome], which looks at nothing but the file itself.  So
    the entry of a file carries that file's name and is the success record
    (file name, embedding, dimension) if all of the file's calls return,
    and the error record (file name, error) with the text of the first
    call that raised otherwise; what happened to the other files has no
    bearing on it.  Every file is read, in input order, whichever items
    failed before it. *)
Theorem batch_one_entry_per_input
        (files : list UploadFile) (w : @World Model Processor Image Inputs) :
  not_loaded (globals w) = false ->
  exists m p rs w',
    model (globals w) = Some m /\
    processor (globals w) = Some p /\
    extract_features_batch env files w = (Ok (mkBatchResponse true rs), w') /\
    rs = map (item_outcome env m p (device (globals w))) files /\
    length rs = length files /\
    map entry_filename rs = map filename files /\
    Forall (fun e =>
              (exists v, e = EntrySuccess (entry_filename e) v (length v)) \/
              (exists err, e = EntryFailure (entry_filename e) err)) rs /\
    reads (trace w') = reads (trace w) ++ map filename files.
Proof.
  intros Hready. unfold not_loaded in Hready.
  destruct (model (globals w)) as [m|] eqn:Hm; [|discriminate].
  destruct (processor (globals w)) as [p|] eqn:Hp; [|discriminate].
  destruct (batch_loop_outcomes files m p [] w Hm Hp) as (w' & Hloop & _ & Hr).
  cbn [app] in Hloop.
  exists m, p, (map (item_outcome env m p (device (globals w))) files), w'.
  split; [reflexivity|]. split; [reflexivity|]. split.
  { unfold extract_features_batch, bind at 1, get_globals, not_loaded.
    rewrite Hm, Hp. unfold bind, ret. rewrite Hloop. reflexivity. }
  split; [reflexivity|]. split; [apply length_map|]. split; [|split].
  - rewrite map_map. apply map_ext. intros file. unfold item_outcome.
    destruct (item_embedding env m p (device (globals w)) file); reflexivity.
  - apply Forall_forall. intros e He. apply in_map_iff in He.
    destruct He as (file & <- & _). unfold item_outcome.
    destruct (item_embedding env m p (device (globals w)) file) as [v|err];
      cbn [entry_filename]; eauto.
  - exact Hr.
Qed.

(** C2: while the model or the processor is unloaded, a single request and
    a batch request both fail with status 503 and detail "Model not loaded",
    and leave the world as it was; in particular nothing is added to the
    trace, so no file is read, no image opened and no inference run, for
    the batch not even for one item. *)
Theorem not_ready_is_503_without_work (w : @World Model Processor Image Inputs) :
  model (globals w) = None \/ processor (globals w) = None ->
  (forall file,
      extract_features env file w =
      (Raise (HTTPException 503 "Model not loaded"), w)) /\
  (forall files,
      extract_features_batch env files w =
      (Raise (HTTPException 503 "Model not loaded"), w)).
Proof.
  intros Hnone.
  assert (Hgate : not_loaded (globals w) = true).
  { unfold not_loaded. destruct Hnone as [-> | ->]; [reflexivity|].
    destruct (model (globals w)); reflexivity. }
  split; intros; unfold extract_features, extract_features_batch, bind,
    get_globals, raise; rewrite Hgate; reflexivity.
Qed.

(** C8: an extraction request, single or batch, ready or not, succeeding
    or failing at any stage, ends with the globals [model], [processor] and
    [device] it started with. *)
Theorem extraction_keeps_globals (w : @World Model Processor Image Inputs) :
  (forall file, globals (snd (extract_features env file w)) = globals w) /\
  (forall files, globals (snd (extract_features_batch env files w)) = globals w).
Proof.
  split.
  - intros file. run. cases; reflexivity.
  - intros files. unfold extract_features_batch, bind at 1, get_globals, raise.
    destruct (not_loaded (globals w)); [reflexivity|].
    destruct (batch_loop_entries files [] w) as (rs & w' & Hloop & Hg & _).
    unfold bind, ret. rewrite Hloop. exact Hg.
Qed.

(** C9: while the engine is ready, a batch request returns normally (a 200
    response) whose envelope has [success = True], whatever the files and
    however many of their entries are failures; an item's own outcome shows
    only in its entry. *)
Theorem batch_envelope_reports_success
        (files : list UploadFile) (w : @World Model Processor Image Inputs) :
  not_loaded (globals w) = false ->
  exists resp w',
    extract_features_batch env files w = (Ok resp, w') /\
    batch_success resp = true /\
    Forall2 (fun file e => fst (process_file env file w) = Ok e)
            files (results resp).
Proof.
  intros Hready.
  destruct (batch_loop_entries files [] w) as (rs & w' & Hloop & _ & Hall).
  exists (mkBatchResponse true rs), w'.
  unfold extract_features_batch, bind at 1, get_globals.
  rewrite Hready. unfold bind. rewrite Hloop. cbn.
  repeat split.
  clear Hloop. induction Hall as [|file e fs es Hone _ IH]; constructor; auto.
Qed.

(** *** The loader *)

(** A load attempt ends as [attempt_outcome] says for the current device,
    starts exactly one download, does not sleep, keeps [device], and leaves
    both [model] and [processor] set when it runs through. *)
Lemma load_attempt_spec (k : nat) (w : @World Model Processor Image Inputs) :
  fst (load_attempt env k w) = attempt_outcome env (device (globals w)) k /\
  schedule (trace (snd (load_attempt env k w))) = schedule (trace w) ++ [inr k] /\
  sleeps (trace (snd (load_attempt env k w))) = sleeps (trace w) /\
  device (globals (snd (load_attempt env k w))) = device (globals w) /\
  (forall u, fst (load_attempt env k w) = Ok u ->
             not_loaded (globals (snd (load_attempt env k w))) = false).
Proof.
  unfold attempt_outcome. run.
  cases; repeat rewrite ?schedule_app, ?sleeps_app;
    cbn [schedule sleeps flat_map app];
    rewrite <- ?app_assoc, ?app_nil_r;
    repeat split; try reflexivity; intros; discriminate.
Qed.

(** The first iteration of the loop: no sleep, one attempt, then the
    [except] clause if it failed. *)
Lemma retry_loop_first (max_retries : Z) (n : nat) (delay : Z)
      (w : @World Model Processor Image Inputs) :
  retry_loop env max_retries (S n) 0 delay w =
  match load_attempt env 0 w with
  | (Ok _, w') => (Ok true, w')
  | (Raise e, w') =>
      if is_network_error (str e) then
        if 0 <? max_retries - 1
        then retry_loop env max_retries n 1 delay w'
        else (Raise e, w')
      else (Raise e, w')
  end.
Proof.
  cbn [retry_loop]. unfold try_except, backoff, ret, raise.
  cbn [Nat.ltb Nat.leb Z.of_nat].
  destruct (load_attempt env 0 w) as [[u|e] w']; [reflexivity|].
  destruct (is_network_error (str e)); [|reflexivity].
  destruct (0 <? max_retries - 1); reflexivity.
Qed.


(** What one attempt does to the world, as the loop sees it. *)
Lemma load_attempt_run (k : nat) (w : @World Model Processor Image Inputs) :
  exists w',
    load_attempt env k w = (attempt_outcome env (device (globals w)) k, w') /\
    schedule (trace w') = schedule (trace w) ++ [inr k] /\
    sleeps (trace w') = sleeps (trace w) /\
    device (globals w') = device (globals w) /\
    (forall u, attempt_outcome env (device (globals w)) k = Ok u ->
               not_loaded (globals w') = false).
Proof.
  destruct (load_attempt_spec k w) as (Hr & Hs & Hsl & Hd & Hok).
  destruct (load_attempt env k w) as [r w'] eqn:E. cbn [fst snd] in *.
  exists w'. subst r. repeat split; auto.
Qed.


(** C4: when the loop runs at least once and attempt 0 fails with an error
    the loader does not classify as a network error, loading raises that
    same error; the schedule gains attempt 0 and nothing else, so there is
    no second attempt and no sleep. *)
Theorem fatal_error_is_not_retried
        (max_retries d : Z) (e : string)
        (w : @World Model Processor Image Inputs) :
  0 < max_retries ->
  attempt_outcome env (selected_device env) 0 = Raise (Exception e) ->
  is_network_error e = false ->
  exists w',
    load_model_with_retry env max_retries d w = (Raise (Exception e), w') /\
    schedule (trace w') = schedule (trace w) ++ [inr 0%nat] /\
    sleeps (trace w') = sleeps (trace w).
Proof.
  intros Hmax H0 N0.
  unfold load_model_with_retry, bind, set_device.
  destruct (Z.to_nat max_retries) as [|n] eqn:En; [lia|].
  set (w0 := mkWorld _ (trace w)).
  rewrite retry_loop_first.
  destruct (load_attempt_run 0 w0) as (w1 & R1 & S1 & L1 & _).
  rewrite R1. change (device (globals w0)) with (selected_device env).
  rewrite H0. cbn [str]. rewrite N0.
  exists w1. repeat split; assumption.
Qed.

(** C10: with [max_retries = 0], starting from unset globals, the loader
    makes no attempt and no sleep (the trace is untouched), raises nothing
    and returns [False], having set only [device]; the start-up hook run
    on that call completes normally with [model] and [processor] still
    [None]; and from then on every single or batch extraction request is
    answered 503 and leaves that world as it is, so the next request meets
    the same answer. *)
Theorem zero_retries_starts_unloaded
        (d : Z) (tr : list (@Event Model Processor Image Inputs)) :
  let w0 := mkWorld (mkGlobals None None None) tr in
  let w1 := mkWorld (mkGlobals None None (selected_device env)) tr in
  load_model_with_retry env 0 d w0 = (Ok false, w1) /\
  lifespan_with (load_model_with_retry env 0 d) w0 = (Ok tt, w1) /\
  (forall file,
      extract_features env file w1 =
      (Raise (HTTPException 503 "Model not loaded"), w1)) /\
  (forall files,
      extract_features_batch env files w1 =
      (Raise (HTTPException 503 "Model not loaded"), w1)).
Proof.
  intros w0 w1. repeat split.
Qed.

(** *** Decoding and failure reporting *)

(** C5: for an upload that is read and opened successfully, the decode
    stage converts exactly when the image's mode is the string ['RGBA']:
    it then calls [image.convert('RGB')] once and hands on what that call
    returns (failing only if the call itself raises); an image in any
    other mode, alpha-bearing or not, is handed on as opened, with no
    conversion attempted. *)
Theorem decode_converts_rgba_only
        (file : UploadFile) (image_bytes : list Byte.byte) (image : Image)
        (w : @World Model Processor Image Inputs) :
  read file = Returns image_bytes ->
  Image_open env (io_BytesIO file image_bytes) = Returns image ->
  (image_mode env image = "RGBA"%string ->
   decode env file w =
   (match image_convert env image "RGB" with
    | Returns converted => Ok converted
    | Raises msg => Raise (Exception msg)
    end,
    mkWorld (globals w)
            (trace w ++ [EvFileRead (filename file); EvImageOpen image_bytes;
                         EvImageConvert image "RGB"]))) /\
  (image_mode env image <> "RGBA"%string ->
   decode env file w =
   (Ok image,
    mkWorld (globals w)
            (trace w ++ [EvFileRead (filename file); EvImageOpen image_bytes]))).
Proof.
  intros Hread Hopen. unfold decode, bind, call, ret.
  rewrite Hread. cbn [globals trace]. rewrite Hopen. cbn [globals trace].
  rewrite <- !app_assoc. cbn [app].
  split; intros Hmode.
  - rewrite Hmode. cbn [String.eqb Ascii.eqb Bool.eqb].
    destruct (image_convert env image "RGB"); cbn [globals trace];
      rewrite <- !app_assoc; reflexivity.
  - destruct (String.eqb_spec (image_mode env image) "RGBA") as [E|_];
      [contradiction|reflexivity].
Qed.

(** C6: on the single-extraction endpoint, with the engine ready, a failure
    of the decode stage and a failure of the embedding stage are reported
    in the same way: status 500 with detail "Feature extraction failed: "
    followed by the text of the exception.  The response is a function of
    that text alone; nothing in it names the stage that failed. *)
Theorem extraction_failure_is_500_with_cause
        (file : UploadFile) (msg : string)
        (w : @World Model Processor Image Inputs) :
  not_loaded (globals w) = false ->
  (fst (decode env file w) = Raise (Exception msg) ->
   fst (extract_features env file w) =
   Raise (HTTPException 500 ("Feature extraction failed: " ++ msg)%string)) /\
  (forall image w1,
      decode env file w = (Ok image, w1) ->
      fst (embed env image w1) = Raise (Exception msg) ->
      fst (extract_features env file w) =
      Raise (HTTPException 500 ("Feature extraction failed: " ++ msg)%string)).
Proof.
  intros Hready.
  split; [intros Hdec | intros image w1 Hdec Hemb];
    unfold extract_features, bind, get_globals; rewrite Hready;
    unfold try_except, raise.
  - destruct (decode env file w) as [[image|e] w1].
    + discriminate.
    + cbn [fst] in *. injection Hdec as ->. reflexivity.
  - rewrite Hdec.
    destruct (embed env image w1) as [[v|e] w2].
    + discriminate.
    + cbn [fst] in *. injection Hemb as ->. reflexivity.
Qed.

(** *** The shape of a successful response *)

(** What [embed] returns is the first row of the model's output with every
    entry divided by that row's norm; it is as long as that row. *)
Lemma embed_returns_normalized_row
      (image : Image) (v : list Float)
      (w w' : @World Model Processor Image Inputs) :
  embed env image w = (Ok v, w') ->
  exists m inputs row rest,
    model (globals w) = Some m /\
    get_image_features env m inputs = Returns (row :: rest) /\
    v = map (fun x => tensor_div env x (tensor_norm env row)) row /\
    length v = length row.
Proof.
  run. unfold normalize. cases; intros H; try discriminate.
  injection H as <- _.
  match goal with
  | Hf : get_image_features env ?m ?i = Returns ?rows,
    Hn : map _ ?rows = _ :: _ |- _ =>
      destruct rows as [|row rest]; [discriminate|];
      cbn [map] in Hn; injection Hn as <- _;
      exists m, i, row, rest
  end.
  repeat split; auto. apply length_map.
Qed.

(** The [dimension] field is computed from the embedding returned. *)
Lemma extract_features_dimension
      (file : UploadFile) (resp : FeaturesResponse)
      (w w' : @World Model Processor Image Inputs) :
  extract_features env file w = (Ok resp, w') ->
  success resp = true /\ dimension resp = length (embedding resp).
Proof.
  unfold extract_features, bind at 1, get_globals, raise, try_except, ret.
  destruct (not_loaded (globals w)); [discriminate|].
  destruct (bind _ _ w) as [[v|e] w1]; [|discriminate].
  intros H. injection H as <- _. split; reflexivity.
Qed.

End Properties.

(** ** The handlers and the loader on explicit inputs *)

(** The batch [a, b, c] with [b] not an image: three entries in input
    order, the middle one the failure, its neighbours unaffected. *)
Example batch_with_bad_middle_item :
  fst (extract_features_batch (Toy.env Toy.healthy)
         [Toy.rgb_png; Toy.garbage; Toy.rgba_png] Toy.loaded) =
  Ok (mkBatchResponse true
        [EntrySuccess "a.png" [42; 57] 2;
         EntryFailure "b.txt"
           "cannot identify image file <_io.BytesIO object at 140002>";
         EntrySuccess "c.png" [42; 57] 2]).
Proof. vm_compute. reflexivity. Qed.

Example start_up_then_extract :
  exists w,
    lifespan (Toy.env Toy.flaky) Toy.unloaded = (Ok tt, w) /\
    sleeps (trace w) = [5; 10] /\
    fst (extract_features (Toy.env Toy.flaky) Toy.rgba_png w) =
    Ok (mkFeaturesResponse true [42; 57] 2).
Proof. eexists. vm_compute. repeat split. Qed.

Lemma batch_one_entry_per_input_witness :
  not_loaded (globals Toy.loaded) = false /\
  exists rs w',
    extract_features_batch (Toy.env Toy.healthy)
      [Toy.rgb_png; Toy.garbage; Toy.rgba_png] Toy.loaded =
    (Ok (mkBatchResponse true rs), w') /\
    rs = [EntrySuccess "a.png" [42; 57] 2;
          EntryFailure "b.txt"
            "cannot identify image file <_io.BytesIO object at 140002>";
          EntrySuccess "c.png" [42; 57] 2] /\
    reads (trace w') = ["a.png"; "b.txt"; "c.png"]%string.
Proof.
  split; [reflexivity|].
  destruct (batch_one_entry_per_input (Toy.env Toy.healthy)
              [Toy.rgb_png; Toy.garbage; Toy.rgba_png] Toy.loaded eq_refl)
    as (m & p & rs & w' & Hm & Hp & Hrun & Hrs & _ & _ & _ & Hr).
  destruct m, p.
  exists rs, w'. split; [exact Hrun|]. split; [|exact Hr].
  rewrite Hrs. reflexivity.
Defined.

Lemma not_ready_is_503_without_work_witness :
  (model (globals Toy.unloaded) = None \/
   processor (globals Toy.unloaded) = None) /\
  extract_features (Toy.env Toy.healthy) Toy.rgb_png Toy.unloaded =
  (Raise (HTTPException 503 "Model not loaded"), Toy.unloaded).
Proof.
  split; [left; reflexivity|].
  apply (not_ready_is_503_without_work (Toy.env Toy.healthy) Toy.unloaded).
  left; reflexivity.
Defined.

Lemma batch_envelope_reports_success_witness :
  not_loaded (globals Toy.loaded) = false /\
  exists resp w',
    extract_features_batch (Toy.env Toy.healthy)
      [Toy.garbage; Toy.huge] Toy.loaded = (Ok resp, w') /\
    batch_success resp = true.
Proof.
  split; [reflexivity|].
  destruct (batch_envelope_reports_success (Toy.env Toy.healthy)
              [Toy.garbage; Toy.huge] Toy.loaded eq_refl)
    as (resp & w' & Hrun & Hs & _).
  exists resp, w'. split; assumption.
Defined.



Lemma fatal_error_is_not_retried_witness :
  0 < 3 /\
  is_network_error "No space left on device" = false /\
  exists w',
    load_model_with_retry (Toy.env Toy.broken) 3 5 Toy.unloaded =
    (Raise (Exception "No space left on device"), w') /\
    schedule (trace w') = [inr 0%nat].
Proof.
  split; [lia|]. split; [reflexivity|].
  destruct (fatal_error_is_not_retried (Toy.env Toy.broken) 3 5
              "No space left on device" Toy.unloaded)
    as (w' & Hrun & Hs & _); [lia | reflexivity | reflexivity |].
  exists w'. split; assumption.
Defined.

Lemma decode_converts_rgba_only_witness :
  fst (decode (Toy.env Toy.healthy) Toy.rgba_png Toy.loaded) =
  Ok ("RGB"%string, [Byte.x06; Byte.x08]).
Proof.
  destruct (decode_converts_rgba_only (Toy.env Toy.healthy) Toy.rgba_png
              [Byte.x01; Byte.x06; Byte.x08]
              ("RGBA"%string, [Byte.x06; Byte.x08]) Toy.loaded
              eq_refl eq_refl) as [Hrgba _].
  rewrite (Hrgba eq_refl). reflexivity.
Defined.

(** An upload in mode ['LA'] (grey with alpha) opens successfully, could be
    converted, and yet leaves the decode stage as it was opened, alpha
    band included. *)
Lemma la_image_keeps_its_alpha :
  read Toy.la_png = Returns [Byte.x02; Byte.x10; Byte.x20] /\
  Image_open (Toy.env Toy.healthy)
             (io_BytesIO Toy.la_png [Byte.x02; Byte.x10; Byte.x20]) =
    Returns ("LA"%string, [Byte.x10; Byte.x20]) /\
  mode_has_alpha
    (image_mode (Toy.env Toy.healthy) ("LA"%string, [Byte.x10; Byte.x20])) = true /\
  image_convert (Toy.env Toy.healthy) ("LA"%string, [Byte.x10; Byte.x20]) "RGB" =
    Returns ("RGB"%string, [Byte.x10; Byte.x20]) /\
  decode (Toy.env Toy.healthy) Toy.la_png Toy.loaded =
    (Ok ("LA"%string, [Byte.x10; Byte.x20]),
     mkWorld (globals Toy.loaded)
             [EvFileRead "icon.png";
              EvImageOpen [Byte.x02; Byte.x10; Byte.x20]]) /\
  fst (decode (Toy.env Toy.healthy) Toy.la_png Toy.loaded) <>
    Ok ("RGB"%string, [Byte.x10; Byte.x20]).
Proof. repeat split. discriminate. Qed.

Lemma extraction_failure_is_500_with_cause_witness :
  not_loaded (globals Toy.loaded) = false /\
  fst (extract_features (Toy.env Toy.healthy) Toy.garbage Toy.loaded) =
  Raise (HTTPException 500
           "Feature extraction failed: cannot identify image file <_io.BytesIO object at 140002>").
Proof.
  split; [reflexivity|].
  apply (extraction_failure_is_500_with_cause (Toy.env Toy.healthy)
           Toy.garbage
           "cannot identify image file <_io.BytesIO object at 140002>"
           Toy.loaded eq_refl).
  reflexivity.
Defined.

(** Two uploads whose headers are sound and whose pixel data is cut off.
    [Image.open] accepts both, since it reads the header only.  The RGBA
    one fails in the decode stage, where [image.convert('RGB')] on line 184
    is the first to need the data; the RGB one passes the decode stage
    untouched and fails in the embedding stage, where the processor on
    line 187 is the first to need it.  The error is the same one in both
    places, and so are the two responses. *)
Lemma truncated_images_fail_alike :
  Image_open (Toy.env Toy.healthy) (io_BytesIO Toy.blank_rgba [Byte.x01]) =
    Returns ("RGBA"%string, []) /\
  fst (decode (Toy.env Toy.healthy) Toy.blank_rgba Toy.loaded) =
    Raise (Exception "image file is truncated") /\
  (exists image w1,
      decode (Toy.env Toy.healthy) Toy.blank Toy.loaded = (Ok image, w1) /\
      fst (embed (Toy.env Toy.healthy) image w1) =
        Raise (Exception "image file is truncated")) /\
  fst (extract_features (Toy.env Toy.healthy) Toy.blank_rgba Toy.loaded) =
    Raise (HTTPException 500 "Feature extraction failed: image file is truncated") /\
  fst (extract_features (Toy.env Toy.healthy) Toy.blank_rgba Toy.loaded) =
  fst (extract_features (Toy.env Toy.healthy) Toy.blank Toy.loaded).
Proof.
  split; [reflexivity|]. split; [reflexivity|].
  split; [|split; reflexivity].
  eexists. eexists. split; reflexivity.
Qed.

(** ** The loader on runs of any length *)

Section LoaderRuns.

Context {Model Processor Image Inputs Float : Type}.
Variable env : @Env Model Processor Image Inputs Float.

Lemma attempts_made_app (a b : list (@Event Model Processor Image Inputs)) :
  attempts_made (a ++ b) = (attempts_made a + attempts_made b)%nat.
Proof.
  unfold attempts_made. rewrite schedule_app, filter_app, length_app.
  reflexivity.
Qed.







(** *** What holds of every run *)

Lemma backoff_run (a : nat) (delay : Z) (w : @World Model Processor Image Inputs) :
  exists r w1,
    backoff env a delay w = (r, w1) /\
    globals w1 = globals w /\
    attempts_made (trace w1) = attempts_made (trace w) /\
    (length (sleeps (trace w1)) <=
     length (sleeps (trace w)) + (if (a =? 0)%nat then 0 else 1))%nat.
Proof.
  unfold backoff, time_sleep, bind, emit, ret, raise.
  destruct a as [|a]; cbn [Nat.ltb Nat.leb Nat.eqb].
  - eexists; eexists; repeat split; lia.
  - destruct (time_sleep_outcome env delay); cbn [globals trace];
      eexists; eexists; (split; [reflexivity|]); cbn [globals trace];
      rewrite ?attempts_made_app, ?sleeps_app, ?length_app;
      change (attempts_made [EvSleep delay]) with 0%nat;
      change (length (sleeps [EvSleep delay])) with 1%nat;
      repeat split; lia.
Qed.

Lemma load_attempt_counts (k : nat) (w : @World Model Processor Image Inputs) :
  exists r w',
    load_attempt env k w = (r, w') /\
    device (globals w') = device (globals w) /\
    attempts_made (trace w') = S (attempts_made (trace w)) /\
    length (sleeps (trace w')) = length (sleeps (trace w)) /\
    (forall u, r = Ok u -> not_loaded (globals w') = false).
Proof.
  destruct (load_attempt_run env k w) as (w' & R & S' & L & D & K).
  exists (attempt_outcome env (device (globals w)) k), w'.
  split; [exact R|]. split; [exact D|]. split; [|split; [congruence | exact K]].
  unfold attempts_made. rewrite S', filter_app, length_app. cbn. lia.
Qed.

Lemma retry_loop_invariants (max_retries : Z) (n : nat) :
  forall (a : nat) (delay : Z) (w : @World Model Processor Image Inputs),
  exists r w',
    retry_loop env max_retries n a delay w = (r, w') /\
    device (globals w') = device (globals w) /\
    (attempts_made (trace w') <= attempts_made (trace w) + n)%nat /\
    (length (sleeps (trace w')) <=
     length (sleeps (trace w)) + (n - (if (a =? 0)%nat then 1 else 0)))%nat /\
    (r = Ok true -> not_loaded (globals w') = false) /\
    (r = Ok false ->
     Z.of_nat (a + n) = max_retries -> n = 0%nat /\ w' = w).
Proof.
  induction n as [|n IH]; intros a delay w.
  - exists (Ok false), w. cbn [retry_loop]. unfold ret.
    split; [reflexivity|]. split; [reflexivity|]. split; [lia|].
    split; [lia|]. split; [discriminate|]. intros _ _. split; reflexivity.
  - assert (Hexc : forall e dl (w1 : @World Model Processor Image Inputs),
      device (globals w1) = device (globals w) ->
      (attempts_made (trace w1) <= S (attempts_made (trace w)))%nat ->
      (length (sleeps (trace w1)) <=
       length (sleeps (trace w)) + (if (a =? 0)%nat then 0 else 1))%nat ->
      exists r w',
        (if is_network_error (str e) then
           if Z.of_nat a <? max_retries - 1
           then retry_loop env max_retries n (S a) dl
           else raise e
         else raise e) w1 = (r, w') /\
        device (globals w') = device (globals w) /\
        (attempts_made (trace w') <= attempts_made (trace w) + S n)%nat /\
        (length (sleeps (trace w')) <=
         length (sleeps (trace w)) + (S n - (if (a =? 0)%nat then 1 else 0)))%nat /\
        (r = Ok true -> not_loaded (globals w') = false) /\
        (r = Ok false ->
         Z.of_nat (a + S n) = max_retries -> S n = 0%nat /\ w' = w)).
    { intros e dl w1 Hdev Hatt Hsl.
      assert (Hraise :
        exists r w',
          raise e w1 = (r : result bool, w') /\
          device (globals w') = device (globals w) /\
          (attempts_made (trace w') <= attempts_made (trace w) + S n)%nat /\
          (length (sleeps (trace w')) <=
           length (sleeps (trace w)) + (S n - (if (a =? 0)%nat then 1 else 0)))%nat /\
          (r = Ok true -> not_loaded (globals w') = false) /\
          (r = Ok false ->
           Z.of_nat (a + S n) = max_retries -> S n = 0%nat /\ w' = w)).
      { exists (Raise e), w1. unfold raise.
        split; [reflexivity|]. split; [assumption|]. split; [lia|].
        split; [destruct a; cbn [Nat.eqb] in *; lia|].
        split; discriminate. }
      destruct (is_network_error (str e)); [|exact Hraise].
      destruct (Z.ltb_spec (Z.of_nat a) (max_retries - 1)) as [Hlt|_];
        [|exact Hraise].
      destruct (IH (S a) dl w1) as (r & w' & Hrun & D & A & L & T & F).
      exists r, w'. split; [exact Hrun|].
      cbn [Nat.eqb] in L.
      split; [congruence|]. split; [lia|].
      split; [destruct a; cbn [Nat.eqb] in *; lia|].
      split; [exact T|].
      intros Hr Hmax. destruct (F Hr) as [Hn _]; lia. }
    cbn [retry_loop]. unfold try_except.
    destruct (backoff_run a delay w) as (rb & w1 & Hb & G1 & A1 & L1).
    rewrite Hb. destruct rb as [dl|e].
    + destruct (load_attempt_counts a w1) as (r1 & w2 & Hrun & D2 & A2 & L2 & K2).
      rewrite Hrun. destruct r1 as [u|e].
      * exists (Ok true), w2. unfold ret.
        split; [reflexivity|]. split; [congruence|]. split; [lia|].
        split; [destruct a; cbn [Nat.eqb] in *; lia|].
        split; [intros _; exact (K2 u eq_refl) | discriminate].
      * apply Hexc; [congruence | lia | lia].
    + apply Hexc; [congruence | lia | lia].
Qed.

(** X4: when the loader returns at all, [True] means that the loop ran
    ([max_retries > 0]) and that model and processor are both set;
    [False] is returned only for [max_retries <= 0], and then nothing was
    attempted.  With a positive [max_retries] the loader either returns
    [True] or raises. *)
Theorem loader_return_value
        (max_retries d : Z) (b : bool) (w w' : @World Model Processor Image Inputs) :
  load_model_with_retry env max_retries d w = (Ok b, w') ->
  (b = true /\ 0 < max_retries /\ not_loaded (globals w') = false) \/
  (b = false /\ max_retries <= 0 /\ trace w' = trace w /\
   model (globals w') = model (globals w) /\
   processor (globals w') = processor (globals w)).
Proof.
  unfold load_model_with_retry, bind, set_device.
  set (w0 := mkWorld _ (trace w)).
  destruct (retry_loop_invariants max_retries (Z.to_nat max_retries) 0 d w0)
    as (r & w1 & Hrun & _ & _ & _ & T & F).
  rewrite Hrun. intros H. injection H as -> ->.
  destruct b.
  - left. split; [reflexivity|]. split; [|exact (T eq_refl)].
    destruct (Z.to_nat max_retries) eqn:En; [|lia].
    cbn [retry_loop] in Hrun. unfold ret in Hrun. discriminate.
  - right. split; [reflexivity|].
    destruct (Z.to_nat max_retries) as [|n] eqn:En.
    + cbn [retry_loop] in Hrun. unfold ret in Hrun. injection Hrun as <-.
      repeat split. lia.
    + destruct (F eq_refl) as [Hn _]; [lia | discriminate].
Qed.

(** X5: whatever the downloads do and however the run ends, the loader
    leaves [device] set to "cuda" or "cpu" as [torch.cuda.is_available()]
    says, starts at most [max_retries] attempts and sleeps at most
    [max_retries - 1] times. *)
Theorem loader_effort_is_bounded
        (max_retries d : Z) (w : @World Model Processor Image Inputs) :
  device (globals (snd (load_model_with_retry env max_retries d w))) =
    selected_device env /\
  (attempts_made (trace (snd (load_model_with_retry env max_retries d w))) <=
   attempts_made (trace w) + Z.to_nat max_retries)%nat /\
  (length (sleeps (trace (snd (load_model_with_retry env max_retries d w)))) <=
   length (sleeps (trace w)) + (Z.to_nat max_retries - 1))%nat.
Proof.
  unfold load_model_with_retry, bind, set_device.
  set (w0 := mkWorld _ (trace w)).
  destruct (retry_loop_invariants max_retries (Z.to_nat max_retries) 0 d w0)
    as (r & w1 & Hrun & D & A & L & _).
  rewrite Hrun. cbn [snd]. repeat split; assumption.
Qed.


(** X8: the loader does not undo its assignments when it fails.  If on
    attempt 0 both downloads succeed and [model.to(device)] then fails
    with an error that is not a network error, the loader raises that
    error and leaves [model] and [processor] set to what was downloaded:
    that the globals are set does not show that loading succeeded. *)
Theorem failed_load_keeps_assignments
        (max_retries d : Z) (m : Model) (p : Processor) (msg : string)
        (w : @World Model Processor Image Inputs) :
  0 < max_retries ->
  CLIPModel_from_pretrained env 0 = Returns m ->
  CLIPProcessor_from_pretrained env 0 = Returns p ->
  model_to env m (selected_device env) = Raises msg ->
  is_network_error msg = false ->
  exists w',
    load_model_with_retry env max_retries d w = (Raise (Exception msg), w') /\
    globals w' = mkGlobals (Some m) (Some p) (selected_device env) /\
    not_loaded (globals w') = false.
Proof.
  intros Hmax Hm Hp Hto Hclass.
  unfold load_model_with_retry, bind, set_device.
  destruct (Z.to_nat max_retries) as [|n] eqn:En; [lia|].
  rewrite retry_loop_first.
  unfold load_attempt, bind, call, set_model, set_processor, get_globals.
  rewrite Hm. cbn [globals trace model processor device]. rewrite Hp.
  cbn [globals trace model processor device].
  fold (selected_device env). rewrite Hto. cbn [str]. rewrite Hclass.
  eexists. split; [reflexivity|]. split; reflexivity.
Qed.

End LoaderRuns.

(** ** Requests: health, status codes, single against batch *)

Section Requests.

Context {Model Processor Image Inputs Float : Type}.
Variable env : @Env Model Processor Image Inputs Float.

Lemma reads_app (a b : list (@Event Model Processor Image Inputs)) :
  reads (a ++ b) = reads a ++ reads b.
Proof. unfold reads. apply flat_map_app. Qed.

Lemma inferences_app (a b : list (@Event Model Processor Image Inputs)) :
  inferences (a ++ b) = (inferences a + inferences b)%nat.
Proof. unfold inferences. rewrite flat_map_app. apply length_app. Qed.

(** The body shared by the two [try] blocks: decode, then embed.  It
    reads the upload once, runs the model at most once, raises nothing
    but what a library call raised, keeps the globals, and what it returns
    is the first row of the model's output divided by its norm. *)
Lemma pipeline_run (file : UploadFile) (w : @World Model Processor Image Inputs) :
  exists r w',
    bind (decode env file) (fun image => embed env image) w = (r, w') /\
    globals w' = globals w /\
    reads (trace w') = reads (trace w) ++ [filename file] /\
    (inferences (trace w') <= inferences (trace w) + 1)%nat /\
    (forall e, r = Raise e -> exists msg, e = Exception msg) /\
    (forall v, r = Ok v ->
       exists m inputs row rest,
         model (globals w) = Some m /\
         get_image_features env m inputs = Returns (row :: rest) /\
         v = map (fun x => tensor_div env x (tensor_norm env row)) row).
Proof.
  unfold decode, embed, normalize, bind, call, ret, raise, get_globals.
  cbn [fst snd globals trace].
  repeat (match goal with
          | |- context [match ?x with _ => _ end] =>
              lazymatch x with
              | context [match _ with _ => _ end] => fail
              | _ => destruct x eqn:?
              end
          end; cbn [fst snd globals trace]);
    eexists; eexists; (split; [reflexivity|]); cbn [globals trace];
    (split; [reflexivity|]);
    repeat rewrite ?reads_app, ?inferences_app;
    cbn [reads inferences flat_map app length];
    rewrite <- ?app_assoc, ?app_nil_r; cbn [app];
    (split; [reflexivity|]); (split; [lia|]);
    (split; [intros ? [=]; subst; eauto|]);
    intros ? [=]; subst.
  all: match goal with
       | Hf : get_image_features env ?m ?i = Returns ?rows,
         Hn : map _ ?rows = _ :: _ |- _ =>
           destruct rows as [|row rest]; [discriminate|];
           cbn [map] in Hn; injection Hn as <- _;
           exists m, i, row, rest
       end.
  all: repeat split; (assumption || reflexivity).
Qed.

(** Both handlers as a case analysis on the shared body. *)
Lemma extract_features_unfold (file : UploadFile)
      (w : @World Model Processor Image Inputs) :
  extract_features env file w =
  if not_loaded (globals w)
  then (Raise (HTTPException 503 "Model not loaded"), w)
  else
    match bind (decode env file) (fun image => embed env image) w with
    | (Ok v, w') => (Ok (mkFeaturesResponse true v (length v)), w')
    | (Raise e, w') =>
        (Raise (HTTPException 500 ("Feature extraction failed: " ++ str e)%string),
         w')
    end.
Proof.
  unfold extract_features, bind at 1, get_globals, try_except, raise, ret.
  destruct (not_loaded (globals w)); reflexivity.
Qed.

Lemma process_file_unfold (file : UploadFile)
      (w : @World Model Processor Image Inputs) :
  process_file env file w =
  match bind (decode env file) (fun image => embed env image) w with
  | (Ok v, w') => (Ok (EntrySuccess (filename file) v (length v)), w')
  | (Raise e, w') => (Ok (EntryFailure (filename file) (str e)), w')
  end.
Proof. reflexivity. Qed.

(** X9: the health endpoint never fails and changes nothing; it reports
    the [device] global as it is, and it reports [model_loaded] (and
    status "healthy", with dimension 512) exactly when the extraction
    endpoints are open: [model_loaded] is [False] if and only if a single
    request, and likewise a batch request, is answered 503. *)
Theorem health_check_matches_gate (w : @World Model Processor Image Inputs) :
  exists resp,
    health_check w = (Ok resp, w) /\
    reported_device resp = device (globals w) /\
    (model_loaded resp = true <->
     status resp = "healthy"%string /\ embedding_dimension resp = Some 512) /\
    (forall file,
        model_loaded resp = false <->
        fst (extract_features env file w) =
        Raise (HTTPException 503 "Model not loaded")) /\
    (forall files,
        model_loaded resp = false <->
        fst (extract_features_batch env files w) =
        Raise (HTTPException 503 "Model not loaded")).
Proof.
  unfold health_check, bind, get_globals, ret.
  destruct (not_loaded (globals w)) eqn:Hgate; eexists;
    (split; [reflexivity|]); cbn [reported_device model_loaded status
                                  embedding_dimension];
    (split; [reflexivity|]); split.
  - split; [discriminate | intros [H _]; discriminate].
  - split; intros file; rewrite ?extract_features_unfold;
      unfold extract_features_batch, bind, get_globals, raise;
      rewrite Hgate; split; reflexivity.
  - split; [intros _; split; reflexivity | reflexivity].
  - split.
    + intros file. rewrite extract_features_unfold, Hgate.
      destruct (pipeline_run file w) as (r & w' & Hrun & _).
      rewrite Hrun. split; [discriminate|]. destruct r; discriminate.
    + intros files. unfold extract_features_batch, bind at 1, get_globals.
      rewrite Hgate.
      destruct (batch_loop_entries env files [] w) as (rs & w' & Hloop & _).
      unfold bind. rewrite Hloop. split; discriminate.
Qed.

(** X13: a successful single response has [success = True], its embedding
    is the first row of what [get_image_features] returned with every
    entry divided by that row's norm, and its [dimension] is the length of
    that row: the handler reports the width the model produced and does
    not fix it to 512 itself. *)
Theorem success_response_shape
        (file : UploadFile) (resp : FeaturesResponse)
        (w w' : @World Model Processor Image Inputs) :
  extract_features env file w = (Ok resp, w') ->
  success resp = true /\
  exists m inputs row rest,
    model (globals w) = Some m /\
    get_image_features env m inputs = Returns (row :: rest) /\
    embedding resp = map (fun x => tensor_div env x (tensor_norm env row)) row /\
    dimension resp = length row.
Proof.
  rewrite extract_features_unfold.
  destruct (not_loaded (globals w)); [discriminate|].
  destruct (pipeline_run file w) as (r & w1 & Hrun & _ & _ & _ & _ & Hok).
  rewrite Hrun. destruct r as [v|e]; [|discriminate].
  intros [= <- <-]. split; [reflexivity|].
  destruct (Hok v eq_refl) as (m & inputs & row & rest & Hm & Hf & ->).
  exists m, inputs, row, rest. cbn [embedding dimension].
  repeat split; auto. apply length_map.
Qed.

Lemma batch_loop_reads (files : list UploadFile) :
  forall (acc : list BatchEntry) (w : @World Model Processor Image Inputs),
    reads (trace (snd (batch_loop env files acc w))) =
      reads (trace w) ++ map filename files /\
    (inferences (trace (snd (batch_loop env files acc w))) <=
     inferences (trace w) + length files)%nat.
Proof.
  induction files as [|file rest IH]; intros acc w.
  - cbn [batch_loop map length]. unfold ret. cbn [snd].
    rewrite app_nil_r. split; [reflexivity | lia].
  - destruct (pipeline_run file w) as (r & w1 & Hrun & _ & Hr & Hi & _).
    assert (Hstep : exists entry,
               batch_loop env (file :: rest) acc w =
               batch_loop env rest (acc ++ [entry]) w1).
    { cbn [batch_loop]. unfold bind at 1.
      rewrite process_file_unfold, Hrun. destruct r; eexists; reflexivity. }
    destruct Hstep as (entry & ->).
    destruct (IH (acc ++ [entry]) w1) as [IHr IHi].
    rewrite IHr, Hr, <- app_assoc. cbn [map length app].
    split; [reflexivity | lia].
Qed.

(** X12: with the engine loaded, a request reads each upload exactly once,
    in the order given, whether or not earlier items failed, and runs the
    model at most once per upload: nothing is retried and nothing is
    skipped. *)
Theorem each_upload_is_read_once
        (w : @World Model Processor Image Inputs) :
  not_loaded (globals w) = false ->
  (forall file,
      reads (trace (snd (extract_features env file w))) =
        reads (trace w) ++ [filename file] /\
      (inferences (trace (snd (extract_features env file w))) <=
       inferences (trace w) + 1)%nat) /\
  (forall files,
      reads (trace (snd (extract_features_batch env files w))) =
        reads (trace w) ++ map filename files /\
      (inferences (trace (snd (extract_features_batch env files w))) <=
       inferences (trace w) + length files)%nat).
Proof.
  intros Hready. split.
  - intros file. rewrite extract_features_unfold, Hready.
    destruct (pipeline_run file w) as (r & w1 & Hrun & _ & Hr & Hi & _).
    rewrite Hrun. destruct r; cbv beta iota; cbn [snd]; split; assumption.
  - intros files.
    assert (Hsame : snd (extract_features_batch env files w) =
                    snd (batch_loop env files [] w)).
    { unfold extract_features_batch, bind, get_globals, ret. rewrite Hready.
      destruct (batch_loop env files [] w) as [[rs|e] w1]; reflexivity. }
    rewrite Hsame. apply batch_loop_reads.
Qed.

(** X6: start-up as written, with the loader's default arguments,
    completes only with the engine loaded: if [lifespan] gets past its
    [try], model and processor are set, the health endpoint answers
    "healthy" with the device selected, and no extraction request is
    answered 503. *)
Theorem lifespan_completes_only_loaded
        (w w' : @World Model Processor Image Inputs) :
  lifespan env w = (Ok tt, w') ->
  not_loaded (globals w') = false /\
  fst (health_check w') =
    Ok (mkHealthResponse "healthy" true (selected_device env)
                         None (Some "CLIP ViT-B/32"%string) (Some 512)) /\
  (forall file,
      fst (extract_features env file w') <>
      Raise (HTTPException 503 "Model not loaded")) /\
  (forall files,
      exists rs, fst (extract_features_batch env files w') =
                 Ok (mkBatchResponse true rs)).
Proof.
  unfold lifespan, lifespan_with, try_except, load_model_with_retry, bind,
    set_device.
  change (Z.to_nat 3) with 3%nat.
  set (w0 := mkWorld _ (trace w)).
  destruct (retry_loop_invariants env 3 3 0 5 w0)
    as (r & w1 & Hrun & D & _ & _ & T & F).
  rewrite Hrun. destruct r as [b|e]; [|discriminate].
  unfold ret. intros [= <-].
  assert (Hready : not_loaded (globals w1) = false).
  { destruct b; [exact (T eq_refl)|].
    destruct (F eq_refl) as [Hn _]; [reflexivity | discriminate]. }
  split; [exact Hready|]. split; [|split].
  - unfold health_check, bind, get_globals, ret. rewrite Hready.
    cbn [fst]. rewrite D. reflexivity.
  - intros file. rewrite extract_features_unfold, Hready.
    destruct (pipeline_run file w1) as (r & w2 & Hrun2 & _).
    rewrite Hrun2. destruct r; discriminate.
  - intros files. unfold extract_features_batch, bind at 1, get_globals.
    rewrite Hready.
    destruct (batch_loop_entries env files [] w1) as (rs & w2 & Hloop & _).
    unfold bind, ret. rewrite Hloop. exists rs. reflexivity.
Qed.

End Requests.

(** ** Further runs on explicit inputs *)




Lemma loader_return_value_witness :
  true = true /\ 0 < 3 /\
  not_loaded
    (globals (snd (load_model_with_retry (Toy.env Toy.healthy) 3 5 Toy.unloaded))) =
  false.
Proof.
  destruct (loader_return_value (Toy.env Toy.healthy) 3 5 true Toy.unloaded
              (snd (load_model_with_retry (Toy.env Toy.healthy) 3 5 Toy.unloaded))
              eq_refl) as [H | (H & _)]; [exact H | discriminate H].
Defined.

Lemma lifespan_completes_only_loaded_witness :
  not_loaded (globals (snd (lifespan (Toy.env Toy.flaky) Toy.unloaded))) = false.
Proof.
  apply (lifespan_completes_only_loaded (Toy.env Toy.flaky) Toy.unloaded
           (snd (lifespan (Toy.env Toy.flaky) Toy.unloaded)) eq_refl).
Defined.


Lemma failed_load_keeps_assignments_witness :
  exists w',
    load_model_with_retry Toy.no_device 3 5 Toy.unloaded =
    (Raise (Exception "CUDA error: invalid device ordinal"), w') /\
    globals w' = mkGlobals (Some tt) (Some tt) (Some "cpu"%string) /\
    not_loaded (globals w') = false.
Proof.
  apply (failed_load_keeps_assignments Toy.no_device 3 5 tt tt
           "CUDA error: invalid device ordinal" Toy.unloaded);
    [lia | reflexivity ..].
Defined.

Lemma each_upload_is_read_once_witness :
  reads (trace (snd (extract_features_batch (Toy.env Toy.healthy)
                       [Toy.rgb_png; Toy.garbage; Toy.rgba_png] Toy.loaded))) =
  ["a.png"; "b.txt"; "c.png"]%string.
Proof.
  apply (proj2 (each_upload_is_read_once (Toy.env Toy.healthy) Toy.loaded eq_refl)
           [Toy.rgb_png; Toy.garbage; Toy.rgba_png]).
Defined.

Lemma success_response_shape_witness :
  exists (m : unit) (inputs row : list Z) (rest : list (list Z)),
    model (globals Toy.loaded) = Some m /\
    get_image_features (Toy.env Toy.healthy) m inputs = Returns (row :: rest) /\
    [42; 57] = map (fun x => Toy.div x (Toy.norm row)) row /\
    2%nat = length row.
Proof.
  apply (success_response_shape (Toy.env Toy.healthy) Toy.rgb_png
           (mkFeaturesResponse true [42; 57] 2) Toy.loaded
           (snd (extract_features (Toy.env Toy.healthy) Toy.rgb_png Toy.loaded))
           eq_refl).
Defined.

Lemma mentions_network_word_witness :
  is_network_error "HTTPSConnectionPool: Read Timeout" = true.
Proof.
  apply (mentions_network_word "HTTPSConnectionPool: Read Timeout" "Timeout");
    [left; reflexivity | reflexivity].
Defined.
